(** * The jupytext notebook [docs/jupytext/matplotlib.py]

    The file is a notebook in jupytext's percent format: a YAML header
    written as a block of comment lines, one markdown cell and one code
    cell.  The development embeds the text of the file line by line and
    the readers that give the text its meaning: the percent-format cell
    splitter, the block-mapping reader of the header, and the lexical
    analysis, grammar and evaluation of the straight-line Python fragment
    the code cell is written in. *)

From Stdlib Require Import String Ascii List Bool Arith ZArith QArith Lia.
Import ListNotations.

Local Open Scope string_scope.
Local Open Scope list_scope.
Local Open Scope nat_scope.

(** ** The text of the file *)

Module Source.

(** The double quote, spelled by its code point. *)
Definition dquote_char : ascii := ascii_of_nat 34.
Definition dq : string := String dquote_char EmptyString.

(** Lines 1 to 26: the header. *)
Definition header_lines : list string :=
  [ "# ---"
  ; ("# title: " ++ dq ++ "MPL slides" ++ dq)%string
  ; "# execute: false"
  ; "# format:"
  ; "#   pdf: default"
  ; "#   beamer: "
  ; "#     keep-tex: true"
  ; "#   revealjs: "
  ; "#     template: revealjs.template"
  ; "# knit: quarto render"
  ; "# editor_options: "
  ; "#   markdown: "
  ; "#     wrap: 72"
  ; "# jupyter:"
  ; "#   jupytext:"
  ; "#     formats: ipynb,md,py:percent"
  ; "#     text_representation:"
  ; "#       extension: .py"
  ; "#       format_name: percent"
  ; "#       format_version: '1.3'"
  ; "#       jupytext_version: 1.6.0"
  ; "#   kernelspec:"
  ; "#     display_name: Python 3"
  ; "#     language: python"
  ; "#     name: python3"
  ; "# ---" ].

(** Lines 27 to 32: a blank line and the markdown cell. *)
Definition markdown_lines : list string :=
  [ ""
  ; "# %% [markdown]"
  ; "# ## Slide"
  ; "#"
  ; "# Here is my side again."
  ; "" ].

(** Lines 33 to 47: the marker of the code cell and its text. *)
Definition code_lines : list string :=
  [ ("# %% plt as matplotlib.pyplot import tags=[" ++ dq ++ "hide-code" ++ dq ++ "]")%string
  ; ""
  ; "labels = ['G1', 'G2', 'G3', 'G4', 'G6'] men_means = [20, 35, 30, 35, 27]"
  ; "women_means = [25, 32, 34, 20, 25] men_std = [2, 3, 4, 1, 2] women_std ="
  ; "[3, 5, 2, 3, 3] width = 0.35 \# the width of the bars: can also be"
  ; "len(x) sequence"
  ; ""
  ; "fig, ax = plt.subplots()"
  ; ""
  ; "ax.bar(labels, men_means, width, yerr=men_std, label='Men')"
  ; "ax.bar(labels, women_means, width, yerr=women_std, bottom=men_means,"
  ; "label='Women')"
  ; ""
  ; "ax.set_ylabel('Scores') ax.set_title('Scores broken out by group and"
  ; "gender') ax.legend() plt.show() \`\`\`" ].

Definition source_lines : list string :=
  Eval cbv in (header_lines ++ markdown_lines ++ code_lines)%list.

End Source.

(** ** Characters and strings *)

Module Text.

Definition code (c : ascii) : nat := nat_of_ascii c.

Definition in_range (lo hi : nat) (c : ascii) : bool :=
  (lo <=? code c) && (code c <=? hi).

Definition is_digit (c : ascii) : bool := in_range 48 57 c.
Definition is_lower (c : ascii) : bool := in_range 97 122 c.
Definition is_upper (c : ascii) : bool := in_range 65 90 c.
Definition is_name_start (c : ascii) : bool :=
  is_lower c || is_upper c || (code c =? 95).
Definition is_name_char (c : ascii) : bool := is_name_start c || is_digit c.
Definition is_blank (c : ascii) : bool :=
  (code c =? 32) || (code c =? 9) || (code c =? 12).
Definition is_newline (c : ascii) : bool := code c =? 10.

Definition newline : string := String (ascii_of_nat 10) EmptyString.

Fixpoint take_while (p : ascii -> bool) (s : string) : string :=
  match s with
  | String c r => if p c then String c (take_while p r) else EmptyString
  | EmptyString => EmptyString
  end.

Fixpoint drop_while (p : ascii -> bool) (s : string) : string :=
  match s with
  | String c r => if p c then drop_while p r else s
  | EmptyString => EmptyString
  end.

Fixpoint drop (n : nat) (s : string) : string :=
  match n, s with
  | S k, String _ r => drop k r
  | _, _ => s
  end.

Fixpoint rev_onto (s acc : string) : string :=
  match s with
  | String c r => rev_onto r (String c acc)
  | EmptyString => acc
  end.

Definition rev (s : string) : string := rev_onto s EmptyString.

(** [str.rstrip] and [str.strip] on blanks. *)
Definition rstrip (s : string) : string := rev (drop_while is_blank (rev s)).
Definition strip (s : string) : string := rstrip (drop_while is_blank s).

Definition starts_with (p s : string) : bool := String.prefix p s.

Definition all_blank (s : string) : bool :=
  match drop_while is_blank s with EmptyString => true | _ => false end.

(** Splits at the first occurrence of a character satisfying [p]. *)
Fixpoint break_at (p : ascii -> bool) (s : string) : option (string * string) :=
  match s with
  | EmptyString => None
  | String c r =>
      if p c then Some (EmptyString, r)
      else match break_at p r with
           | Some (a, b) => Some (String c a, b)
           | None => None
           end
  end.

(** Lines joined with a line feed after each one but the last. *)
Fixpoint join_lines (ls : list string) : string :=
  match ls with
  | [] => EmptyString
  | [l] => l
  | l :: rest => (l ++ newline ++ join_lines rest)%string
  end.

Definition string_in (s : string) (l : list string) : bool :=
  existsb (String.eqb s) l.

End Text.

(** ** The header: a block mapping written in comment lines *)

Module Yaml.
Import Text.

(** One [key: value] line of a block mapping, with the keys of the
    mappings that enclose it. *)
Record entry := Entry { path : list string; value : string }.

Definition indent_of (l : string) : nat :=
  String.length (take_while (fun c => code c =? 32) l).

Definition is_quote (c : ascii) : bool := (code c =? 39) || (code c =? 34).

(** A scalar written between two quotes of the same kind loses them. *)
Definition unquote (v : string) : string :=
  match v with
  | String q r =>
      if is_quote q then
        match rev r with
        | String q' m => if Ascii.eqb q q' then rev m else v
        | EmptyString => v
        end
      else v
  | EmptyString => v
  end.

Definition split_key (l : string) : option (string * string) :=
  match break_at (fun c => code c =? 58) (strip l) with
  | Some (k, v) => Some (rstrip k, unquote (strip v))
  | None => None
  end.

(** Mappings still open at indentation [i]: those indented less. *)
Fixpoint close_to (i : nat) (stack : list (nat * string)) : list (nat * string) :=
  match stack with
  | (j, k) :: rest => if i <=? j then close_to i rest else stack
  | [] => []
  end.

Definition path_of (stack : list (nat * string)) : list string :=
  List.rev (map snd stack).

(** Reads the lines in order; [stack] holds the open mappings, innermost
    first.  A line that is neither blank nor [key: value] is an error. *)
Fixpoint read_entries (stack : list (nat * string)) (ls : list string)
  : option (list entry) :=
  match ls with
  | [] => Some []
  | l :: rest =>
      if all_blank l then read_entries stack rest
      else
        match split_key l with
        | None => None
        | Some (k, v) =>
            let open := close_to (indent_of l) stack in
            match read_entries ((indent_of l, k) :: open) rest with
            | Some es => Some (Entry (path_of open ++ [k]) v :: es)
            | None => None
            end
        end
  end.

Definition path_eqb (p q : list string) : bool :=
  if list_eq_dec string_dec p q then true else false.

Fixpoint lookup (p : list string) (es : list entry) : option string :=
  match es with
  | [] => None
  | e :: rest => if path_eqb (path e) p then Some (value e) else lookup p rest
  end.

(** The keys directly under the mapping at [p], in file order. *)
Fixpoint children (p : list string) (es : list entry) : list string :=
  match es with
  | [] => []
  | e :: rest =>
      match List.rev (path e) with
      | k :: up => if path_eqb (List.rev up) p then k :: children p rest
                   else children p rest
      | [] => children p rest
      end
  end.

End Yaml.

(** ** The percent format *)

Module Percent.
Import Text.

Inductive cell_kind := Markdown | Raw | Code.

Record cell := Cell
  { kind : cell_kind
  ; title : string        (* free text of the marker line *)
  ; options : list string (* [key=value] words of the marker line *)
  ; first_line : nat      (* number of the first line of the body *)
  ; body : list string }.

Definition header_fence : string := "# ---".
Definition cell_marker : string := "# %%".

(** Removes the comment prefix of a header or markdown line. *)
Definition uncomment (l : string) : string :=
  if starts_with "# " l then drop 2 l
  else if starts_with "#" l then drop 1 l
  else l.

Fixpoint until_fence (ls : list string) : option (list string * list string) :=
  match ls with
  | [] => None
  | l :: rest =>
      if String.eqb (rstrip l) header_fence then Some ([], rest)
      else match until_fence rest with
           | Some (h, r) => Some (uncomment l :: h, r)
           | None => None
           end
  end.

(** The header is the block between two fence lines at the top of the
    file; a file that does not start with a fence has none. *)
Definition split_header (ls : list string) : list string * list string :=
  match ls with
  | l :: rest =>
      if String.eqb (rstrip l) header_fence then
        match until_fence rest with
        | Some (h, r) => (h, r)
        | None => ([], ls)
        end
      else ([], ls)
  | [] => ([], [])
  end.

Fixpoint words (s : string) (n : nat) : list string :=
  match n with
  | O => []
  | S k =>
      match drop_while is_blank s with
      | EmptyString => []
      | s' => take_while (fun c => negb (is_blank c)) s'
              :: words (drop_while (fun c => negb (is_blank c)) s') k
      end
  end.

Definition has_equals (w : string) : bool :=
  match break_at (fun c => code c =? 61) w with Some _ => true | None => false end.

Fixpoint title_words (ws : list string) : list string :=
  match ws with
  | w :: rest => if has_equals w then [] else w :: title_words rest
  | [] => []
  end.

Fixpoint option_words (ws : list string) : list string :=
  match ws with
  | w :: rest => if has_equals w then ws else option_words rest
  | [] => []
  end.

Fixpoint unwords (ws : list string) : string :=
  match ws with
  | [] => EmptyString
  | [w] => w
  | w :: rest => (w ++ " " ++ unwords rest)%string
  end.

Definition kind_of (ws : list string) : cell_kind :=
  if string_in "[markdown]" ws then Markdown
  else if string_in "[md]" ws then Markdown
  else if string_in "[raw]" ws then Raw
  else Code.

Definition is_kind_word (w : string) : bool :=
  string_in w ["[markdown]"; "[md]"; "[raw]"].

Fixpoint drop_blank_lines (ls : list string) : list string :=
  match ls with
  | l :: rest => if all_blank l then drop_blank_lines rest else ls
  | [] => []
  end.

Definition trim_blank_lines (ls : list string) : list string :=
  List.rev (drop_blank_lines (List.rev (drop_blank_lines ls))).

Fixpoint leading_blank_lines (ls : list string) : nat :=
  match ls with
  | l :: rest => if all_blank l then S (leading_blank_lines rest) else 0
  | [] => 0
  end.

(** The cell opened by marker line [m] with the lines [ls] under it, the
    first of them being line [line] of the file.  Markdown and raw cells
    are stored commented out; code is verbatim. *)
Definition make_cell (m : string) (line : nat) (ls : list string) : cell :=
  let ws := words (drop (String.length cell_marker) m) (String.length m) in
  let k := kind_of ws in
  let plain := filter (fun w => negb (is_kind_word w)) ws in
  let text := match k with Code => ls | _ => map uncomment ls end in
  Cell k (unwords (title_words plain)) (option_words plain)
       (line + leading_blank_lines text) (trim_blank_lines text).

Definition is_marker (l : string) : bool := starts_with cell_marker l.

(** Lines up to the next marker, and the rest from that marker on. *)
Fixpoint span_cell (ls : list string) : list string * list string :=
  match ls with
  | [] => ([], [])
  | l :: rest =>
      if is_marker l then ([], ls)
      else let (a, b) := span_cell rest in (l :: a, b)
  end.

(** Cells of the lines from line [line] of the file on.  Text before the
    first marker is a code cell of its own unless it is blank. *)
Fixpoint split_cells (fuel line : nat) (ls : list string) : list cell :=
  match fuel with
  | O => []
  | S k =>
      match ls with
      | [] => []
      | l :: rest =>
          if is_marker l then
            let (b, r) := span_cell rest in
            make_cell l (S line) b :: split_cells k (S line + List.length b) r
          else
            let (b, r) := span_cell ls in
            match trim_blank_lines b with
            | [] => split_cells k (line + List.length b) r
            | b' => Cell Code EmptyString [] (line + leading_blank_lines b) b'
                    :: split_cells k (line + List.length b) r
            end
      end
  end.

Record notebook := Notebook
  { header : list Yaml.entry
  ; cells : list cell }.

Definition read (ls : list string) : option notebook :=
  let (h, rest) := split_header ls in
  match Yaml.read_entries [] h with
  | Some es =>
      Some (Notebook es
              (split_cells (S (List.length rest))
                           (S (List.length ls - List.length rest)) rest))
  | None => None
  end.

Definition code_cells (nb : notebook) : list cell :=
  filter (fun c => match kind c with Code => true | _ => false end) (cells nb).

End Percent.

(** ** The notebook of the file *)

Definition matplotlib_header : list Yaml.entry :=
  Eval vm_compute in
    match Yaml.read_entries [] (fst (Percent.split_header Source.source_lines)) with
    | Some es => es
    | None => []
    end.

Definition matplotlib_notebook : Percent.notebook :=
  Eval vm_compute in
    match Percent.read Source.source_lines with
    | Some nb => nb
    | None => Percent.Notebook [] []
    end.

(** The one code cell of the notebook. *)
Definition code_cell : Percent.cell :=
  Eval vm_compute in
    match Percent.code_cells matplotlib_notebook with
    | c :: _ => c
    | [] => Percent.Cell Percent.Code "" [] 0 []
    end.

(** The text of the code cell: lines 35 to 47 of the file. *)
Definition cell_lines : list string := Eval vm_compute in Percent.body code_cell.

Definition cell_text : string := Eval vm_compute in Text.join_lines cell_lines.

(** The first line of the code cell's text is line 35 of the file. *)
Definition cell_first_line : nat := Eval vm_compute in Percent.first_line code_cell.

(** ** Lexical analysis of the code cell *)

Module Lex.
Import Text.

(** Token kinds of Python's tokenizer.  [NEWLINE] ends a logical line,
    [NL] is a line break that ends none (a blank line, or a break inside
    brackets); [ERRORTOKEN] is a character that starts no token. *)
Inductive token :=
| NAME (s : string)
| NUMBER (s : string)
| STRING (s : string)
| OP (s : string)
| COMMENT (s : string)
| INDENT (n : nat)
| NEWLINE
| NL
| ERRORTOKEN (s : string)
| ENDMARKER.

(** A token with the number of the line it starts on. *)
Definition located : Type := nat * token.

Definition is_squote (c : ascii) : bool := code c =? 39.
Definition is_dquote (c : ascii) : bool := code c =? 34.
Definition is_backslash (c : ascii) : bool := code c =? 92.
Definition is_hash (c : ascii) : bool := code c =? 35.
Definition is_dot (c : ascii) : bool := code c =? 46.

Definition one (c : ascii) : string := String c EmptyString.

(** Body of a string literal opened by quote [q]: the characters up to
    the closing quote on the same line, a backslash taking the next
    character with it.  [None] when the line ends first. *)
Fixpoint string_body (q : ascii) (s : string) : option string :=
  match s with
  | EmptyString => None
  | String c r =>
      if Ascii.eqb c q then Some EmptyString
      else if is_newline c then None
      else if is_backslash c then
        match r with
        | String d r' =>
            if is_newline d then None
            else match string_body q r' with
                 | Some b => Some (String c (String d b))
                 | None => None
                 end
        | EmptyString => None
        end
      else match string_body q r with
           | Some b => Some (String c b)
           | None => None
           end
  end.

(** A decimal integer or point float: digits, then optionally a point
    and more digits. *)
Definition number_text (s : string) : string :=
  let int_part := take_while is_digit s in
  match drop (String.length int_part) s with
  | String c r =>
      if is_dot c then (int_part ++ one c ++ take_while is_digit r)%string
      else int_part
  | EmptyString => int_part
  end.

Definition two_char_ops : list string :=
  ["=="; "!="; "<="; ">="; "->"; "**"; "//"; "<<"; ">>"; ":=";
   "+="; "-="; "*="; "/="; "%="; "&="; "|="; "^="; "@="].

Definition one_char_ops : list string :=
  ["("; ")"; "["; "]"; "{"; "}"; ","; ":"; "."; ";"; "@"; "=";
   "+"; "-"; "*"; "/"; "%"; "&"; "|"; "^"; "~"; "<"; ">"].

Definition operator_at (s : string) : option string :=
  match s with
  | String c (String d _) =>
      if string_in (String c (one d)) two_char_ops then Some (String c (one d))
      else if string_in (one c) one_char_ops then Some (one c)
      else None
  | String c EmptyString =>
      if string_in (one c) one_char_ops then Some (one c) else None
  | EmptyString => None
  end.

Definition opens (o : string) : bool := string_in o ["("; "["; "{"].
Definition closes (o : string) : bool := string_in o [")"; "]"; "}"].

Definition depth_after (o : string) (depth : nat) : nat :=
  if opens o then S depth else if closes o then pred depth else depth.

(** What starts at the head of [s], and how many characters it takes. *)
Inductive lexeme :=
| Tok (t : token) (len : nat)
| Blank (len : nat)
| Break                 (* a line feed *)
| Joined                (* a backslash and the line feed after it *).

Definition lexeme_at (s : string) : lexeme :=
  match s with
  | EmptyString => Blank 0
  | String c r =>
      if is_newline c then Break
      else if is_blank c then Blank (String.length (take_while is_blank s))
      else if is_hash c then
        let t := take_while (fun x => negb (is_newline x)) s in
        Tok (COMMENT t) (String.length t)
      else if is_name_start c then
        let t := take_while is_name_char s in Tok (NAME t) (String.length t)
      else if is_digit c then
        let t := number_text s in Tok (NUMBER t) (String.length t)
      else if is_dot c && match r with String d _ => is_digit d | _ => false end then
        let t := (one c ++ take_while is_digit r)%string in
        Tok (NUMBER t) (String.length t)
      else if is_squote c || is_dquote c then
        match string_body c r with
        | Some b => Tok (STRING b) (2 + String.length b)
        | None => Tok (ERRORTOKEN (one c)) 1
        end
      else if is_backslash c then
        match r with
        | String d _ => if is_newline d then Joined else Tok (ERRORTOKEN (one c)) 1
        | EmptyString => Tok (ERRORTOKEN (one c)) 1
        end
      else
        match operator_at s with
        | Some o => Tok (OP o) (String.length o)
        | None => Tok (ERRORTOKEN (one c)) 1
        end
  end.

(** Does the line that starts (after its indentation) with [s] carry a
    statement? *)
Definition starts_statement (s : string) : bool :=
  match s with
  | EmptyString => false
  | String c _ => negb (is_newline c || is_hash c)
  end.

(** The scanner walks the text one character at a time; [skip] counts the
    characters still covered by the lexeme found last.  [line] is the
    current line number, [depth] the number of open brackets, [bol] holds
    at the beginning of a line and [started] once the logical line has a
    token. *)
Fixpoint scan (skip line depth : nat) (bol started : bool) (s : string)
  : list located :=
  match s with
  | EmptyString =>
      (if started then [(line, NEWLINE)] else []) ++ [(line, ENDMARKER)]
  | String c r =>
      match skip with
      | S k => scan k (if is_newline c then S line else line) depth bol started r
      | O =>
          match lexeme_at s with
          | Break =>
              if (0 <? depth) || negb started
              then (line, NL) :: scan 0 (S line) depth (depth =? 0) started r
              else (line, NEWLINE) :: scan 0 (S line) depth true false r
          | Joined => scan 1 line depth false started r
          | Blank n =>
              if bol && (depth =? 0) && starts_statement (drop n s)
              then (line, INDENT n) :: scan (pred n) line depth false started r
              else scan (pred n) line depth bol started r
          | Tok (COMMENT t) n =>
              (line, COMMENT t) :: scan (pred n) line depth false started r
          | Tok (OP o) n =>
              (line, OP o) :: scan (pred n) line (depth_after o depth) false true r
          | Tok t n =>
              (line, t) :: scan (pred n) line depth false true r
          end
      end
  end.

Definition tokenize (first_line : nat) (text : string) : list located :=
  scan 0 first_line 0 true false text.

Definition is_error (t : token) : bool :=
  match t with ERRORTOKEN _ => true | _ => false end.

(** The tokens the grammar sees: comments and [NL] are dropped. *)
Definition significant (t : token) : bool :=
  match t with COMMENT _ | NL => false | _ => true end.

(** The tokens of a re-wrapped text: the line structure is dropped
    altogether, as for a paragraph whose line breaks carry no meaning. *)
Definition is_line_end (t : token) : bool :=
  match t with NEWLINE | NL => true | _ => false end.

Definition token_eqb (a b : token) : bool :=
  match a, b with
  | NAME x, NAME y | NUMBER x, NUMBER y | STRING x, STRING y
  | OP x, OP y | COMMENT x, COMMENT y | ERRORTOKEN x, ERRORTOKEN y => String.eqb x y
  | INDENT n, INDENT m => n =? m
  | NEWLINE, NEWLINE | NL, NL | ENDMARKER, ENDMARKER => true
  | _, _ => false
  end.

End Lex.

Definition cell_tokens : list Lex.located :=
  Eval vm_compute in Lex.tokenize cell_first_line cell_text.

(** ** Syntax of the straight-line fragment *)

Module Syntax.
Import Lex.

#[local] Set Warnings "-register-all".

Inductive expr :=
| EName (x : string)
| ENum (lit : string)
| EStr (s : string)
| EList (items : list expr)
| EAttr (e : expr) (attr : string)
| ECall (f : expr) (args : list expr) (kwargs : list (string * expr)).

Inductive stmt :=
| SAssign (targets : list string) (e : expr)
| SExpr (e : expr).

(** Outcome of parsing: a result, a syntax error at a line, or the
    recursion bound reached. *)
Inductive parsed (A : Type) :=
| Parsed (a : A)
| Invalid (line : nat) (found : token)
| Exhausted.
Arguments Parsed {A} a.
Arguments Invalid {A} line found.
Arguments Exhausted {A}.

Definition bind {A B} (m : parsed A) (k : A -> parsed B) : parsed B :=
  match m with
  | Parsed a => k a
  | Invalid l t => Invalid l t
  | Exhausted => Exhausted
  end.

Notation "x <~ m ;; k" := (bind m (fun x => k))
  (at level 61, m at next level, right associativity).

(** The error at the head of the remaining tokens. *)
Definition invalid_at {A} (ts : list located) : parsed A :=
  match ts with
  | (l, t) :: _ => Invalid l t
  | [] => Invalid 0 ENDMARKER
  end.

Definition keywords : list string :=
  ["False"; "None"; "True"; "and"; "as"; "assert"; "async"; "await";
   "break"; "class"; "continue"; "def"; "del"; "elif"; "else"; "except";
   "finally"; "for"; "from"; "global"; "if"; "import"; "in"; "is";
   "lambda"; "nonlocal"; "not"; "or"; "pass"; "raise"; "return"; "try";
   "while"; "with"; "yield"].

Definition is_keyword (s : string) : bool := Text.string_in s keywords.

(** Keywords that open a branch, a loop, a definition or any other
    compound statement, or that make an expression branch. *)
Definition control_keywords : list string :=
  ["if"; "elif"; "else"; "for"; "while"; "try"; "except"; "finally";
   "with"; "def"; "class"; "lambda"; "async"; "await"; "match"; "case";
   "break"; "continue"; "return"; "yield"; "raise"].

(** [expr], the items of a list display up to its bracket, the arguments
    of a call up to its parenthesis, and the trailers of a primary. *)
Fixpoint parse_expr (fuel : nat) (ts : list located) : parsed (expr * list located) :=
  match fuel with
  | O => Exhausted
  | S k =>
      let items :=
        fix items (n : nat) (ts : list located) : parsed (list expr * list located) :=
          match n with
          | O => Exhausted
          | S m =>
              match ts with
              | (_, OP "]") :: r => Parsed ([], r)
              | _ =>
                  p <~ parse_expr k ts ;;
                  match snd p with
                  | (_, OP ",") :: r =>
                      q <~ items m r ;; Parsed (fst p :: fst q, snd q)
                  | (_, OP "]") :: r => Parsed ([fst p], r)
                  | r => invalid_at r
                  end
              end
          end in
      let args :=
        fix args (n : nat) (seen_kw : bool) (ts : list located)
          : parsed ((list expr * list (string * expr)) * list located) :=
          match n with
          | O => Exhausted
          | S m =>
              match ts with
              | (_, OP ")") :: r => Parsed (([], []), r)
              | (l, NAME x) :: (_, OP "=") :: r =>
                  if is_keyword x then Invalid l (NAME x)
                  else
                    p <~ parse_expr k r ;;
                    match snd p with
                    | (_, OP ",") :: r' =>
                        q <~ args m true r' ;;
                        Parsed ((fst (fst q), (x, fst p) :: snd (fst q)), snd q)
                    | (_, OP ")") :: r' => Parsed (([], [(x, fst p)]), r')
                    | r' => invalid_at r'
                    end
              | _ =>
                  if seen_kw then invalid_at ts
                  else
                    p <~ parse_expr k ts ;;
                    match snd p with
                    | (_, OP ",") :: r' =>
                        q <~ args m false r' ;;
                        Parsed ((fst p :: fst (fst q), snd (fst q)), snd q)
                    | (_, OP ")") :: r' => Parsed (([fst p], []), r')
                    | r' => invalid_at r'
                    end
              end
          end in
      let trailers :=
        fix trailers (n : nat) (e : expr) (ts : list located)
          : parsed (expr * list located) :=
          match n with
          | O => Exhausted
          | S m =>
              match ts with
              | (_, OP ".") :: (l, NAME a) :: r =>
                  if is_keyword a then Invalid l (NAME a)
                  else trailers m (EAttr e a) r
              | (_, OP ".") :: r => invalid_at r
              | (_, OP "(") :: r =>
                  p <~ args (List.length r) false r ;;
                  trailers m (ECall e (fst (fst p)) (snd (fst p))) (snd p)
              | _ => Parsed (e, ts)
              end
          end in
      match ts with
      | (l, NAME x) :: r =>
          if is_keyword x then Invalid l (NAME x)
          else trailers (S (List.length r)) (EName x) r
      | (_, NUMBER n) :: r => trailers (S (List.length r)) (ENum n) r
      | (_, STRING s) :: r => trailers (S (List.length r)) (EStr s) r
      | (_, OP "[") :: r =>
          p <~ items (S (List.length r)) r ;;
          trailers (S (List.length r)) (EList (fst p)) (snd p)
      | _ => invalid_at ts
      end
  end.

(** The names of an assignment target list [x, y, ...] followed by [=]. *)
Fixpoint parse_targets (ts : list located) : option (list string * list located) :=
  match ts with
  | (_, NAME x) :: (_, OP "=") :: r =>
      if is_keyword x then None else Some ([x], r)
  | (_, NAME x) :: (_, OP ",") :: r =>
      if is_keyword x then None
      else match parse_targets r with
           | Some (xs, r') => Some (x :: xs, r')
           | None => None
           end
  | _ => None
  end.

(** A simple statement must be followed by the end of its logical line
    or by a semicolon. *)
Definition end_of_statement (ts : list located) : parsed (list located) :=
  match ts with
  | (_, NEWLINE) :: r => Parsed r
  | (_, OP ";") :: (_, NEWLINE) :: r => Parsed r
  | (_, OP ";") :: r => Parsed r
  | _ => invalid_at ts
  end.

Definition parse_stmt (ts : list located) : parsed (stmt * list located) :=
  match parse_targets ts with
  | Some (xs, r) =>
      p <~ parse_expr (S (List.length r)) r ;;
      r' <~ end_of_statement (snd p) ;;
      Parsed (SAssign xs (fst p), r')
  | None =>
      p <~ parse_expr (S (List.length ts)) ts ;;
      r' <~ end_of_statement (snd p) ;;
      Parsed (SExpr (fst p), r')
  end.

Fixpoint parse_stmts (fuel : nat) (ts : list located) : parsed (list stmt) :=
  match fuel with
  | O => Exhausted
  | S k =>
      match ts with
      | [] => Parsed []
      | (_, ENDMARKER) :: _ => Parsed []
      | _ =>
          p <~ parse_stmt ts ;;
          ss <~ parse_stmts k (snd p) ;;
          Parsed (fst p :: ss)
      end
  end.

(** The grammar never sees comments or [NL]. *)
Definition parse_tokens (ts : list located) : parsed (list stmt) :=
  let sig := filter (fun lt => significant (snd lt)) ts in
  parse_stmts (S (List.length sig)) sig.

Definition parse (first_line : nat) (text : string) : parsed (list stmt) :=
  parse_tokens (tokenize first_line text).

(** The number of call expressions in an expression, a statement, a
    program. *)
Fixpoint call_sites (e : expr) : nat :=
  match e with
  | EName _ | ENum _ | EStr _ => 0
  | EList items => list_sum (map call_sites items)
  | EAttr o _ => call_sites o
  | ECall f args kwargs =>
      S (call_sites f + list_sum (map call_sites args)
         + list_sum (map (fun p => call_sites (snd p)) kwargs))
  end.

Definition stmt_call_sites (s : stmt) : nat :=
  match s with SAssign _ e | SExpr e => call_sites e end.

Definition program_call_sites (ss : list stmt) : nat :=
  list_sum (map stmt_call_sites ss).

End Syntax.


(** ** Evaluation: the namespace and the pyplot calls of the cell *)

Module Run.
Import Lex Syntax.

#[local] Set Warnings "-register-all".

Inductive value :=
| VNum (q : Q)
| VStr (s : string)
| VList (vs : list value)
| VTuple (vs : list value)
| VNone
| VModule (name : string)
| VFigure (id : nat)
| VAxes (id : nat)
| VBuiltin (name : string)
| VMethod (self : value) (name : string).

(** One [bar] call: a series of bars, one per position. *)
Record bars := Bars
  { bar_x : list value
  ; bar_height : list Q
  ; bar_width : list Q
  ; bar_bottom : list Q
  ; bar_yerr : option (list Q)
  ; bar_label : option string }.

Record figure := Figure
  { series : list bars
  ; ylabel : option string
  ; title : option string
  ; legend : option (list string) }.

Definition empty_figure : figure := Figure [] None None None.

(** The kernel's state: the namespace, the figures made so far, how many
    times the figures were shown, and the pyplot calls made, latest last. *)
Record state := State
  { env : list (string * value)
  ; figures : list figure
  ; shown : nat
  ; calls : list string }.

Inductive exn :=
| SyntaxError (line : nat) (found : token)
| ParserLimit
| NameError (x : string)
| AttributeError (attr : string)
| TypeError (what : string)
| ValueError (what : string).

Inductive outcome (A : Type) :=
| Ok (a : A) (st : state)
| Raised (e : exn) (st : state).
Arguments Ok {A} a st.
Arguments Raised {A} e st.

(** Computations that thread the state and may raise. *)
Definition M (A : Type) : Type := state -> outcome A.

Definition ret {A} (a : A) : M A := fun st => Ok a st.
Definition raise {A} (e : exn) : M A := fun st => Raised e st.
Definition bind {A B} (m : M A) (k : A -> M B) : M B :=
  fun st => match m st with
            | Ok a st' => k a st'
            | Raised e st' => Raised e st'
            end.
Definition get : M state := fun st => Ok st st.
Definition put (st : state) : M unit := fun _ => Ok tt st.

Notation "x <- m ;; k" := (bind m (fun x => k))
  (at level 61, m at next level, right associativity).
Notation "m ;;; k" := (bind m (fun _ => k))
  (at level 61, right associativity).

Fixpoint assoc {A} (x : string) (l : list (string * A)) : option A :=
  match l with
  | [] => None
  | (y, a) :: r => if String.eqb x y then Some a else assoc x r
  end.

(** Binding a name replaces its earlier binding, as in a [dict]. *)
Fixpoint store {A} (x : string) (a : A) (l : list (string * A)) : list (string * A) :=
  match l with
  | [] => [(x, a)]
  | (y, b) :: r => if String.eqb x y then (x, a) :: r else (y, b) :: store x a r
  end.

Definition assign (x : string) (v : value) : M unit :=
  st <- get ;; put (State (store x v (env st)) (figures st) (shown st) (calls st)).

Definition log_call (name : string) : M unit :=
  st <- get ;; put (State (env st) (figures st) (shown st) (calls st ++ [name])).

(** *** Number literals *)

Definition digit_value (c : ascii) : N := N.of_nat (Text.code c - 48).

Fixpoint digits_value (acc : N) (s : string) : N :=
  match s with
  | String c r => digits_value (acc * 10 + digit_value c)%N r
  | EmptyString => acc
  end.

Definition all_digits (s : string) : bool :=
  match Text.drop_while Text.is_digit s with EmptyString => true | _ => false end.

(** The exact decimal value of a literal [ddd], [ddd.ddd], [ddd.] or
    [.ddd]. *)
Definition number_value (lit : string) : option Q :=
  match Text.break_at is_dot lit with
  | None =>
      if all_digits lit && negb (String.eqb lit "")
      then Some (Z.of_N (digits_value 0 lit) # 1) else None
  | Some (i, f) =>
      if all_digits i && all_digits f && negb (String.eqb (i ++ f)%string "")
      then Some (Z.of_N (digits_value 0 (i ++ f)%string)
                   # Z.to_pos (10 ^ Z.of_nat (String.length f)))
      else None
  end.

(** *** The pyplot interface *)

Definition pyplot : string := "matplotlib.pyplot".

Definition module_attrs : list string := ["subplots"; "show"].
Definition axes_attrs : list string := ["bar"; "set_ylabel"; "set_title"; "legend"].

Definition get_attr (v : value) (a : string) : M value :=
  match v with
  | VModule m =>
      if String.eqb m pyplot && Text.string_in a module_attrs
      then ret (VMethod v a) else raise (AttributeError a)
  | VAxes _ =>
      if Text.string_in a axes_attrs then ret (VMethod v a)
      else raise (AttributeError a)
  | _ => raise (AttributeError a)
  end.

Fixpoint numbers (vs : list value) : option (list Q) :=
  match vs with
  | [] => Some []
  | VNum q :: r => option_map (cons q) (numbers r)
  | _ :: _ => None
  end.

(** A scalar is repeated for every bar; a sequence must have one entry
    per bar. *)
Definition broadcast (n : nat) (what : string) (v : value) : M (list Q) :=
  match v with
  | VNum q => ret (repeat q n)
  | VList vs | VTuple vs =>
      match numbers vs with
      | Some qs => if List.length qs =? n then ret qs else raise (ValueError what)
      | None => raise (TypeError what)
      end
  | _ => raise (TypeError what)
  end.

Fixpoint replace_nth {A} (n : nat) (a : A) (l : list A) : list A :=
  match n, l with
  | O, _ :: r => a :: r
  | S k, x :: r => x :: replace_nth k a r
  | _, [] => []
  end.

Definition with_figure (id : nat) (f : figure -> figure) : M unit :=
  st <- get ;;
  match nth_error (figures st) id with
  | Some fg => put (State (env st) (replace_nth id (f fg) (figures st))
                          (shown st) (calls st))
  | None => raise (ValueError "figure")
  end.

Definition bar_keywords : list string := ["width"; "bottom"; "yerr"; "label"].

Fixpoint known_keywords (kw : list (string * value)) : bool :=
  match kw with
  | [] => true
  | (k, _) :: r =>
      Text.string_in k bar_keywords && negb (Text.string_in k (map fst r))
      && known_keywords r
  end.

(** [Axes.bar(x, height, width=0.8, bottom=0, yerr=None, label=None)]. *)
Definition axes_bar (id : nat) (args : list value) (kw : list (string * value))
  : M value :=
  log_call "bar" ;;;
  if negb (known_keywords kw) then raise (TypeError "bar: keyword") else
  match args with
  | VList xs :: h :: rest =>
      let n := List.length xs in
      let positional (i : nat) (k : string) (default : value) : M value :=
        match nth_error rest i, assoc k kw with
        | Some _, Some _ => raise (TypeError k)
        | Some v, None => ret v
        | None, Some v => ret v
        | None, None => ret default
        end in
      if 2 <? List.length rest then raise (TypeError "bar: arguments") else
      hs <- broadcast n "height" h ;;
      w <- positional 0 "width" (VNum (8 # 10)) ;;
      ws <- broadcast n "width" w ;;
      b <- positional 1 "bottom" (VNum 0) ;;
      bs <- broadcast n "bottom" b ;;
      es <- match assoc "yerr" kw with
            | Some VNone | None => ret None
            | Some v => e <- broadcast n "yerr" v ;; ret (Some e)
            end ;;
      lb <- match assoc "label" kw with
            | Some (VStr s) => ret (Some s)
            | Some VNone | None => ret None
            | Some _ => raise (TypeError "label")
            end ;;
      with_figure id (fun fg =>
        Figure (series fg ++ [Bars xs hs ws bs es lb])
               (ylabel fg) (title fg) (legend fg)) ;;;
      ret VNone
  | _ => raise (TypeError "bar: arguments")
  end.

Fixpoint labels_of (ss : list bars) : list string :=
  match ss with
  | [] => []
  | s :: r => match bar_label s with
              | Some l => l :: labels_of r
              | None => labels_of r
              end
  end.

Definition module_call (name : string) (args : list value)
  (kw : list (string * value)) : M value :=
  if String.eqb name "subplots" then
    log_call "subplots" ;;;
    match args, kw with
    | [], [] =>
        st <- get ;;
        put (State (env st) (figures st ++ [empty_figure]) (shown st) (calls st)) ;;;
        ret (VTuple [VFigure (List.length (figures st));
                     VAxes (List.length (figures st))])
    | _, _ => raise (TypeError "subplots: arguments")
    end
  else if String.eqb name "show" then
    log_call "show" ;;;
    st <- get ;;
    put (State (env st) (figures st) (S (shown st)) (calls st)) ;;;
    ret VNone
  else raise (AttributeError name).

Definition axes_call (id : nat) (name : string) (args : list value)
  (kw : list (string * value)) : M value :=
  if String.eqb name "bar" then axes_bar id args kw
  else if String.eqb name "set_ylabel" then
    log_call "set_ylabel" ;;;
    match args, kw with
    | [VStr s], [] =>
        with_figure id (fun fg =>
          Figure (series fg) (Some s) (title fg) (legend fg)) ;;;
        ret VNone
    | _, _ => raise (TypeError "set_ylabel: arguments")
    end
  else if String.eqb name "set_title" then
    log_call "set_title" ;;;
    match args, kw with
    | [VStr s], [] =>
        with_figure id (fun fg =>
          Figure (series fg) (ylabel fg) (Some s) (legend fg)) ;;;
        ret VNone
    | _, _ => raise (TypeError "set_title: arguments")
    end
  else if String.eqb name "legend" then
    log_call "legend" ;;;
    match args, kw with
    | [], [] =>
        with_figure id (fun fg =>
          Figure (series fg) (ylabel fg) (title fg)
                 (Some (labels_of (series fg)))) ;;;
        ret VNone
    | _, _ => raise (TypeError "legend: arguments")
    end
  else raise (AttributeError name).

Definition builtin_call (name : string) (args : list value)
  (kw : list (string * value)) : M value :=
  if String.eqb name "len" then
    match args, kw with
    | [VList vs], [] | [VTuple vs], [] =>
        ret (VNum (Z.of_nat (List.length vs) # 1))
    | _, _ => raise (TypeError "len")
    end
  else raise (NameError name).

Definition call (f : value) (args : list value) (kw : list (string * value))
  : M value :=
  match f with
  | VMethod (VModule _) name => module_call name args kw
  | VMethod (VAxes id) name => axes_call id name args kw
  | VBuiltin name => builtin_call name args kw
  | _ => raise (TypeError "object is not callable")
  end.

(** *** Expressions and statements *)

Fixpoint eval (e : expr) : M value :=
  match e with
  | EName x =>
      st <- get ;;
      match assoc x (env st) with
      | Some v => ret v
      | None => raise (NameError x)
      end
  | ENum lit =>
      match number_value lit with
      | Some q => ret (VNum q)
      | None => raise (ValueError lit)
      end
  | EStr s => ret (VStr s)
  | EList items =>
      vs <- (fix each (l : list expr) : M (list value) :=
               match l with
               | [] => ret []
               | i :: r => v <- eval i ;; vs <- each r ;; ret (v :: vs)
               end) items ;;
      ret (VList vs)
  | EAttr o a => v <- eval o ;; get_attr v a
  | ECall f args kwargs =>
      fv <- eval f ;;
      avs <- (fix each (l : list expr) : M (list value) :=
                match l with
                | [] => ret []
                | i :: r => v <- eval i ;; vs <- each r ;; ret (v :: vs)
                end) args ;;
      kvs <- (fix each (l : list (string * expr)) : M (list (string * value)) :=
                match l with
                | [] => ret []
                | (k, i) :: r => v <- eval i ;; vs <- each r ;; ret ((k, v) :: vs)
                end) kwargs ;;
      call fv avs kvs
  end.

Fixpoint assign_all (xs : list string) (vs : list value) : M unit :=
  match xs, vs with
  | [], [] => ret tt
  | x :: xr, v :: vr => assign x v ;;; assign_all xr vr
  | _, _ => raise (ValueError "unpack")
  end.

Definition exec (s : stmt) : M unit :=
  match s with
  | SExpr e => eval e ;;; ret tt
  | SAssign [x] e => v <- eval e ;; assign x v
  | SAssign xs e =>
      v <- eval e ;;
      match v with
      | VTuple vs | VList vs =>
          if List.length vs =? List.length xs then assign_all xs vs
          else raise (ValueError "unpack")
      | _ => raise (TypeError "unpack")
      end
  end.

Fixpoint exec_all (ss : list stmt) : M unit :=
  match ss with
  | [] => ret tt
  | s :: r => exec s ;;; exec_all r
  end.

Definition initial (globals : list (string * value)) : state :=
  State globals [] 0 [].

(** Running a cell: the whole text is compiled first, and only a text
    that parses is executed, statement by statement. *)
Definition run_cell (globals : list (string * value)) (first_line : nat)
  (text : string) : outcome unit :=
  match Syntax.parse first_line text with
  | Parsed ss => exec_all ss (initial globals)
  | Invalid l t => Raised (SyntaxError l t) (initial globals)
  | Exhausted => Raised ParserLimit (initial globals)
  end.

(** The namespace of a kernel in which pyplot was imported as [plt]. *)
Definition with_pyplot : list (string * value) :=
  [("len", VBuiltin "len"); ("plt", VModule pyplot)].

End Run.

(** ** The cell as a re-wrapped paragraph

    The header asks the editor to wrap markdown at column 72
    ([editor_options: markdown: wrap: 72]) and no line of the cell is
    longer: the line breaks inside a paragraph of the cell are where the
    wrapping put them.  The values a name is given "as written" are
    therefore read off the token stream with the line ends left out. *)

Module Written.
Import Lex.

Inductive literal :=
| LNum (lit : string)
| LStr (s : string).

Inductive written :=
| WScalar (l : literal)
| WList (items : list literal).

(** The items of a display of literals, after its opening bracket. *)
Fixpoint literal_items (ts : list token) : option (list literal) :=
  match ts with
  | OP "]" :: _ => Some []
  | NUMBER n :: OP "]" :: _ => Some [LNum n]
  | STRING s :: OP "]" :: _ => Some [LStr s]
  | NUMBER n :: OP "," :: r => option_map (cons (LNum n)) (literal_items r)
  | STRING s :: OP "," :: r => option_map (cons (LStr s)) (literal_items r)
  | _ => None
  end.

(** Every [name = literal] and [name = [literal, ...]] outside brackets,
    in the order of the text. *)
Fixpoint bindings (depth : nat) (ts : list token) : list (string * written) :=
  match ts with
  | [] => []
  | NAME x :: r =>
      match depth, r with
      | O, OP "=" :: OP "[" :: r' =>
          match literal_items r' with
          | Some items => (x, WList items) :: bindings depth r
          | None => bindings depth r
          end
      | O, OP "=" :: NUMBER n :: _ => (x, WScalar (LNum n)) :: bindings depth r
      | O, OP "=" :: STRING s :: _ => (x, WScalar (LStr s)) :: bindings depth r
      | _, _ => bindings depth r
      end
  | OP o :: r => bindings (depth_after o depth) r
  | _ :: r => bindings depth r
  end.

Definition unwrapped (ts : list located) : list token :=
  filter (fun t => negb (is_line_end t)) (map snd ts).

Definition bindings_of (ts : list located) : list (string * written) :=
  bindings 0 (unwrapped ts).

Definition sequences (bs : list (string * written)) : list (string * list literal) :=
  flat_map (fun b => match snd b with
                     | WList items => [(fst b, items)]
                     | WScalar _ => []
                     end) bs.

Definition scalars (bs : list (string * written)) : list (string * literal) :=
  flat_map (fun b => match snd b with
                     | WScalar l => [(fst b, l)]
                     | WList _ => []
                     end) bs.

Definition literal_number (l : literal) : option Q :=
  match l with
  | LNum n => Run.number_value n
  | LStr _ => None
  end.

Fixpoint all_some {A} (l : list (option A)) : option (list A) :=
  match l with
  | [] => Some []
  | Some a :: r => option_map (cons a) (all_some r)
  | None :: _ => None
  end.

(** The numbers of the sequence bound to [x], when it is one of numbers. *)
Definition numbers_of (x : string) (bs : list (string * written)) : option (list Q) :=
  match Run.assoc x (sequences bs) with
  | Some items => all_some (map literal_number items)
  | None => None
  end.

Definition strings_of (x : string) (bs : list (string * written)) : option (list string) :=
  match Run.assoc x (sequences bs) with
  | Some items =>
      all_some (map (fun l => match l with LStr s => Some s | LNum _ => None end) items)
  | None => None
  end.

Definition literal_value (l : literal) : Run.value :=
  match l with
  | LStr s => Run.VStr s
  | LNum n => match Run.number_value n with
              | Some q => Run.VNum q
              | None => Run.VNone
              end
  end.

Definition written_value (w : written) : Run.value :=
  match w with
  | WScalar l => literal_value l
  | WList items => Run.VList (map literal_value items)
  end.

(** The namespace in which every name has the value written for it. *)
Definition namespace (bs : list (string * written)) : list (string * Run.value) :=
  map (fun b => (fst b, written_value (snd b))) bs.

Definition literal_expr (l : literal) : Syntax.expr :=
  match l with
  | LNum n => Syntax.ENum n
  | LStr s => Syntax.EStr s
  end.

Definition written_expr (w : written) : Syntax.expr :=
  match w with
  | WScalar l => literal_expr l
  | WList items => Syntax.EList (map literal_expr items)
  end.

(** The assignments that bind every name to what is written for it. *)
Definition binding_statements (bs : list (string * written)) : list Syntax.stmt :=
  map (fun b => Syntax.SAssign [fst b] (written_expr (snd b))) bs.

(** Positions of the token sequence [pat] in [ts]. *)
Fixpoint starts_with_tokens (pat ts : list token) : bool :=
  match pat, ts with
  | [], _ => true
  | p :: pr, t :: tr => token_eqb p t && starts_with_tokens pr tr
  | _ :: _, [] => false
  end.

Fixpoint occurrences (pat : list token) (ts : list located) : list nat :=
  match ts with
  | [] => []
  | (l, _) :: r =>
      if starts_with_tokens pat (map snd ts) then l :: occurrences pat r
      else occurrences pat r
  end.

(** A token that can end an expression, and one that can only start one. *)
Definition ends_expression (t : token) : bool :=
  match t with
  | NAME x => negb (Syntax.is_keyword x)
  | NUMBER _ | STRING _ => true
  | OP o => closes o
  | _ => false
  end.

Definition starts_expression (t : token) : bool :=
  match t with
  | NAME x => negb (Syntax.is_keyword x)
  | NUMBER _ | STRING _ => true
  | _ => false
  end.

(** Lines on which, outside brackets, a token that ends an expression is
    directly followed by one that starts another: two statements with
    neither a line end nor a semicolon between them. *)
Fixpoint run_together (depth : nat) (ts : list located) : list nat :=
  match ts with
  | (l, a) :: (((_, b) :: _) as r) =>
      let d := match a with OP o => depth_after o depth | _ => depth end in
      if (d =? 0) && ends_expression a && starts_expression b
      then l :: run_together d r
      else run_together d r
  | _ => []
  end.

Definition stray (c : string) (ts : list located) : list nat :=
  flat_map (fun lt => match snd lt with
                      | ERRORTOKEN e => if String.eqb e c then [fst lt] else []
                      | _ => []
                      end) ts.

Definition names (ts : list located) : list string :=
  flat_map (fun lt => match snd lt with NAME x => [x] | _ => [] end) ts.

End Written.

(** ** The converter *)

Module Render.
Import Percent.







End Render.

Definition cell_bindings : list (string * Written.written) :=
  Eval vm_compute in Written.bindings_of cell_tokens.

(** Lines [a] to [b] of the file, taken from the text of the code cell. *)
Definition lines_of_cell (a b : nat) : string :=
  Text.join_lines (firstn (S b - a) (skipn (a - cell_first_line) cell_lines)).

(** The statements of lines 40 to 44: the paragraphs that make the axes
    and draw the bars.  These lines are laid out as Python. *)
Definition plotting_block : list Syntax.stmt :=
  Eval vm_compute in
    match Syntax.parse 40 (lines_of_cell 40 44) with
    | Syntax.Parsed ss => ss
    | _ => []
    end.

Module Inputs.
Import Syntax.



Definition keyword_of (k : string) (s : stmt) : option expr :=
  match s with
  | SExpr (ECall _ _ kwargs) => Run.assoc k kwargs
  | _ => None
  end.

Definition positional (i : nat) (s : stmt) : option expr :=
  match s with
  | SExpr (ECall _ args _) => nth_error args i
  | _ => None
  end.

Definition is_bar_call (s : stmt) : bool :=
  match s with
  | SExpr (ECall (EAttr _ "bar") _ _) => true
  | _ => false
  end.

(** A statement of the straight-line kind: an assignment, or a call made
    for its effect. *)
Definition assignment_or_call (s : stmt) : bool :=
  match s with
  | SAssign _ _ => true
  | SExpr (ECall _ _ _) => true
  | SExpr _ => false
  end.

Definition is_indent (t : Lex.token) : bool :=
  match t with Lex.INDENT _ => true | _ => false end.

End Inputs.

Definition figures_of {A} (o : Run.outcome A) : list Run.figure :=
  match o with
  | Run.Ok _ st | Run.Raised _ st => Run.figures st
  end.

Definition calls_of {A} (o : Run.outcome A) : list string :=
  match o with
  | Run.Ok _ st | Run.Raised _ st => Run.calls st
  end.

Definition raised {A} (o : Run.outcome A) : option Run.exn :=
  match o with
  | Run.Ok _ _ => None
  | Run.Raised e _ => Some e
  end.

Definition final {A} (o : Run.outcome A) : Run.state :=
  match o with
  | Run.Ok _ st | Run.Raised _ st => st
  end.

(** A computation that makes no pyplot call, and one that makes at most
    [n] of them. *)
Definition silent {A} (m : Run.M A) : Prop :=
  forall st, Run.calls (final (m st)) = Run.calls st.

Definition at_most (n : nat) {A} (m : Run.M A) : Prop :=
  forall st,
    List.length (Run.calls (final (m st))) <= List.length (Run.calls st) + n.

(** The bars drawn from the sequences as written. *)
Definition men_bars : Run.bars :=
  Run.Bars [Run.VStr "G1"; Run.VStr "G2"; Run.VStr "G3"; Run.VStr "G4"; Run.VStr "G6"]
           [20; 35; 30; 35; 27]%Q
           (repeat (35 # 100) 5)
           (repeat 0%Q 5)
           (Some [2; 3; 4; 1; 2]%Q)
           (Some "Men").

Definition women_bars : Run.bars :=
  Run.Bars [Run.VStr "G1"; Run.VStr "G2"; Run.VStr "G3"; Run.VStr "G4"; Run.VStr "G6"]
           [25; 32; 34; 20; 25]%Q
           (repeat (35 # 100) 5)
           [20; 35; 30; 35; 27]%Q
           (Some [3; 5; 2; 3; 3]%Q)
           (Some "Women").

(** Induction over expressions that reaches the expressions nested in
    displays and argument lists. *)
Section ExprInduction.

Variable P : Syntax.expr -> Prop.
Hypothesis P_name : forall x, P (Syntax.EName x).
Hypothesis P_num : forall n, P (Syntax.ENum n).
Hypothesis P_str : forall s, P (Syntax.EStr s).
Hypothesis P_list : forall items, Forall P items -> P (Syntax.EList items).
Hypothesis P_attr : forall o a, P o -> P (Syntax.EAttr o a).
Hypothesis P_call : forall f args kwargs,
  P f -> Forall P args -> Forall (fun p => P (snd p)) kwargs ->
  P (Syntax.ECall f args kwargs).

Fixpoint expr_nested_ind (e : Syntax.expr) : P e :=
  match e with
  | Syntax.EName x => P_name x
  | Syntax.ENum n => P_num n
  | Syntax.EStr s => P_str s
  | Syntax.EList items =>
      P_list items
        ((fix all (l : list Syntax.expr) : Forall P l :=
            match l with
            | [] => Forall_nil P
            | i :: r => Forall_cons i (expr_nested_ind i) (all r)
            end) items)
  | Syntax.EAttr o a => P_attr o a (expr_nested_ind o)
  | Syntax.ECall f args kwargs =>
      P_call f args kwargs (expr_nested_ind f)
        ((fix all (l : list Syntax.expr) : Forall P l :=
            match l with
            | [] => Forall_nil P
            | i :: r => Forall_cons i (expr_nested_ind i) (all r)
            end) args)
        ((fix all (l : list (string * Syntax.expr))
            : Forall (fun p => P (snd p)) l :=
            match l with
            | [] => Forall_nil _
            | p :: r => Forall_cons p (expr_nested_ind (snd p)) (all r)
            end) kwargs)
  end.

End ExprInduction.

(** ** Paragraphs, filling and the statements under the wrapping *)

Module Wrap.
Import Text Lex.

(** The paragraphs of a text: maximal runs of lines that are not blank,
    each with the number of its first line.  [cur] is the paragraph being
    read, latest line first. *)
Fixpoint split_paragraphs (line : nat) (cur : option (nat * list string))
  (ls : list string) : list (nat * list string) :=
  match ls with
  | [] =>
      match cur with
      | Some (n, p) => [(n, List.rev p)]
      | None => []
      end
  | l :: rest =>
      if all_blank l then
        match cur with
        | Some (n, p) => (n, List.rev p) :: split_paragraphs (S line) None rest
        | None => split_paragraphs (S line) None rest
        end
      else
        match cur with
        | Some (n, p) => split_paragraphs (S line) (Some (n, l :: p)) rest
        | None => split_paragraphs (S line) (Some (line, [l])) rest
        end
  end.

Definition paragraphs (first_line : nat) (ls : list string)
  : list (nat * list string) :=
  split_paragraphs first_line None ls.

Definition line_words (l : string) : list string :=
  Percent.words l (String.length l).

Definition paragraph_words (p : list string) : list string :=
  flat_map line_words p.

(** Greedy filling: a word joins the current line when the line, a space
    and the word fit in [width] columns, and starts a new line otherwise. *)
Fixpoint fill_from (width : nat) (cur : string) (ws : list string) : list string :=
  match ws with
  | [] => [cur]
  | w :: r =>
      if String.length cur + 1 + String.length w <=? width
      then fill_from width (cur ++ " " ++ w)%string r
      else cur :: fill_from width w r
  end.

Definition fill (width : nat) (ws : list string) : list string :=
  match ws with
  | [] => []
  | w :: r => fill_from width w r
  end.

(** The wrap column the header sets for the editor, when it is a number. *)
Definition wrap_column (h : list Yaml.entry) : option nat :=
  match Yaml.lookup ["editor_options"; "markdown"; "wrap"] h with
  | Some v =>
      if Run.all_digits v && negb (String.eqb v "")
      then Some (N.to_nat (Run.digits_value 0 v)) else None
  | None => None
  end.

(** A paragraph on one line, its lines joined by single spaces. *)
Definition unwrap (p : list string) : string := Percent.unwords p.

Definition escapes_dropped (ts : list located) : list located :=
  filter (fun lt => negb (is_error (snd lt))) ts.

(** A line end is put wherever, outside brackets, a token that ends an
    expression is directly followed by one that starts another: the
    places [Written.run_together] reports. *)
Fixpoint separated (depth : nat) (ts : list located) : list located :=
  match ts with
  | (l, a) :: (((_, b) :: _) as r) =>
      let d := match a with OP o => depth_after o depth | _ => depth end in
      if (d =? 0) && Written.ends_expression a && Written.starts_expression b
      then (l, a) :: (l, NEWLINE) :: separated d r
      else (l, a) :: separated d r
  | _ => ts
  end.

(** The statements of a paragraph once it is unwrapped, its error
    tokens are dropped and its statements are separated. *)
Definition restored_paragraph (p : nat * list string)
  : Syntax.parsed (list Syntax.stmt) :=
  Syntax.parse_tokens
    (separated 0
       (filter (fun lt => significant (snd lt))
          (escapes_dropped (tokenize (fst p) (unwrap (snd p)))))).

Fixpoint restored (ps : list (nat * list string))
  : Syntax.parsed (list Syntax.stmt) :=
  match ps with
  | [] => Syntax.Parsed []
  | p :: r =>
      Syntax.bind (restored_paragraph p) (fun a =>
      Syntax.bind (restored r) (fun b => Syntax.Parsed (a ++ b)))
  end.


End Wrap.

Definition cell_paragraphs : list (nat * list string) :=
  Eval vm_compute in Wrap.paragraphs cell_first_line cell_lines.

(** The calls of lines 46 and 47, read from the unwrapped paragraph. *)
Definition closing_block : list Syntax.stmt :=
  [ Syntax.SExpr (Syntax.ECall (Syntax.EAttr (Syntax.EName "ax") "set_ylabel")
                    [Syntax.EStr "Scores"] [])
  ; Syntax.SExpr (Syntax.ECall (Syntax.EAttr (Syntax.EName "ax") "set_title")
                    [Syntax.EStr "Scores broken out by group and gender"] [])
  ; Syntax.SExpr (Syntax.ECall (Syntax.EAttr (Syntax.EName "ax") "legend") [] [])
  ; Syntax.SExpr (Syntax.ECall (Syntax.EAttr (Syntax.EName "plt") "show") [] []) ].

(** The figure the cell is written to draw. *)
Definition chart : Run.figure :=
  Run.Figure [men_bars; women_bars] (Some "Scores")
             (Some "Scores broken out by group and gender")
             (Some ["Men"; "Women"]).

(** A header entry is a mapping node when some other entry lies under it. *)
Definition has_child (es : list Yaml.entry) (e : Yaml.entry) : bool :=
  match Yaml.children (Yaml.path e) es with [] => false | _ => true end.

Definition parent_present (es : list Yaml.entry) (e : Yaml.entry) : bool :=
  match List.rev (Yaml.path e) with
  | [] => false
  | [_] => true
  | _ :: up => match Yaml.lookup (List.rev up) es with
               | Some _ => true
               | None => false
               end
  end.

Fixpoint no_duplicate_paths (es : list Yaml.entry) : bool :=
  match es with
  | [] => true
  | e :: r =>
      match Yaml.lookup (Yaml.path e) r with
      | Some _ => false
      | None => no_duplicate_paths r
      end
  end.

Definition is_comment_or_break (t : Lex.token) : bool :=
  match t with Lex.COMMENT _ | Lex.NL => true | _ => false end.




(** * Properties *)

(** ** The file and its readers *)

Lemma notebook_read : Percent.read Source.source_lines = Some matplotlib_notebook.
Proof. vm_compute. reflexivity. Qed.

Lemma header_read :
  Yaml.read_entries [] (fst (Percent.split_header Source.source_lines))
  = Some matplotlib_header.
Proof. vm_compute. reflexivity. Qed.

Lemma header_of_notebook : Percent.header matplotlib_notebook = matplotlib_header.
Proof. reflexivity. Qed.

Lemma one_code_cell : Percent.code_cells matplotlib_notebook = [code_cell].
Proof. vm_compute. reflexivity. Qed.

(** The text of the code cell is lines 35 to 47 of the file. *)
Lemma cell_lines_in_source :
  cell_lines = firstn 13 (skipn 34 Source.source_lines)
  /\ List.length Source.source_lines = 47
  /\ Percent.first_line code_cell = 35.
Proof. repeat split. Qed.

Lemma cell_text_joined : Text.join_lines cell_lines = cell_text.
Proof. vm_compute. reflexivity. Qed.

Lemma cell_tokens_scanned : Lex.tokenize cell_first_line cell_text = cell_tokens.
Proof. vm_compute. reflexivity. Qed.

Lemma cell_bindings_read : Written.bindings_of cell_tokens = cell_bindings.
Proof. vm_compute. reflexivity. Qed.

Lemma plotting_block_parsed :
  Syntax.parse 40 (lines_of_cell 40 44) = Syntax.Parsed plotting_block.
Proof. vm_compute. reflexivity. Qed.

(** The header sets the wrap column to 72 and no line of the cell is
    longer than that. *)
Lemma cell_wrapped_at_72 :
  Yaml.lookup ["editor_options"; "markdown"; "wrap"] matplotlib_header = Some "72"
  /\ forallb (fun l => String.length l <=? 72) cell_lines = true.
Proof. split; vm_compute; reflexivity. Qed.

(** ** General facts about the runner *)

Lemma run_cell_invalid g first text line found :
  Syntax.parse first text = Syntax.Invalid line found ->
  Run.run_cell g first text
  = Run.Raised (Run.SyntaxError line found) (Run.initial g).
Proof. intros H. unfold Run.run_cell. rewrite H. reflexivity. Qed.

Lemma run_cell_parsed g first text ss :
  Syntax.parse first text = Syntax.Parsed ss ->
  Run.run_cell g first text = Run.exec_all ss (Run.initial g).
Proof. intros H. unfold Run.run_cell. rewrite H. reflexivity. Qed.

Lemma assoc_store {A} x y (a : A) l :
  Run.assoc x (Run.store y a l)
  = if String.eqb x y then Some a else Run.assoc x l.
Proof.
  induction l as [|[z b] l IH]; simpl.
  - destruct (String.eqb x y); reflexivity.
  - destruct (String.eqb y z) eqn:Eyz; simpl.
    + apply String.eqb_eq in Eyz; subst z.
      destruct (String.eqb x y); reflexivity.
    + destruct (String.eqb x z) eqn:Exz.
      * apply String.eqb_eq in Exz; subst z.
        rewrite String.eqb_sym, Eyz. reflexivity.
      * exact IH.
Qed.


Lemma cell_parse_invalid :
  Syntax.parse cell_first_line cell_text = Syntax.Invalid 35 (Lex.NAME "men_means").
Proof. vm_compute. reflexivity. Qed.

(** ** Straight-line evaluation: every call site runs at most once *)

Lemma silent_ret {A} (a : A) : silent (Run.ret a).
Proof. intros st. reflexivity. Qed.

Lemma silent_raise {A} e : silent (@Run.raise A e).
Proof. intros st. reflexivity. Qed.

Lemma silent_get : silent Run.get.
Proof. intros st. reflexivity. Qed.

Lemma silent_bind {A B} (m : Run.M A) (k : A -> Run.M B) :
  silent m -> (forall a, silent (k a)) -> silent (Run.bind m k).
Proof.
  intros Hm Hk st. unfold Run.bind. specialize (Hm st).
  destruct (m st) as [a st'|e st']; simpl in *.
  - rewrite Hk. exact Hm.
  - exact Hm.
Qed.

Lemma silent_assign x v : silent (Run.assign x v).
Proof. intros st. reflexivity. Qed.

Lemma silent_with_figure id f : silent (Run.with_figure id f).
Proof.
  intros st. unfold Run.with_figure, Run.bind, Run.get. 
  destruct (nth_error (Run.figures st) id); reflexivity.
Qed.

Lemma silent_broadcast n what v : silent (Run.broadcast n what v).
Proof.
  unfold Run.broadcast.
  destruct v; try apply silent_raise; try apply silent_ret;
    destruct (Run.numbers vs); try apply silent_raise;
    destruct (_ =? _); try apply silent_raise; apply silent_ret.
Qed.

Lemma silent_get_attr v a : silent (Run.get_attr v a).
Proof.
  unfold Run.get_attr.
  destruct v; try apply silent_raise;
    match goal with |- silent (if ?b then _ else _) => destruct b end;
    try apply silent_raise; apply silent_ret.
Qed.

Lemma at_most_silent {A} (m : Run.M A) : silent m -> at_most 0 m.
Proof. intros H st. rewrite H. lia. Qed.

Lemma at_most_le {A} n n' (m : Run.M A) : n <= n' -> at_most n m -> at_most n' m.
Proof. intros Hle H st. specialize (H st). lia. Qed.

Lemma at_most_bind {A B} n k (m : Run.M A) (f : A -> Run.M B) :
  at_most n m -> (forall a, at_most k (f a)) -> at_most (n + k) (Run.bind m f).
Proof.
  intros Hm Hf st. unfold Run.bind. specialize (Hm st).
  destruct (m st) as [a st'|e st']; simpl in *.
  - specialize (Hf a st'). lia.
  - lia.
Qed.

Lemma at_most_log_call name : at_most 1 (Run.log_call name).
Proof.
  intros st. unfold Run.log_call, Run.bind, Run.get, Run.put. simpl.
  rewrite length_app. simpl. lia.
Qed.

(** A logged call followed by work that makes no call. *)
Lemma at_most_logged {A} name (m : Run.M A) :
  silent m -> at_most 1 (Run.bind (Run.log_call name) (fun _ => m)).
Proof.
  intros H. apply (at_most_bind 1 0).
  - apply at_most_log_call.
  - intros _. apply at_most_silent, H.
Qed.

Ltac quiet :=
  repeat first
    [ apply silent_ret | apply silent_raise | apply silent_get
    | apply silent_assign | apply silent_with_figure | apply silent_broadcast
    | apply silent_get_attr
    | apply silent_bind; [|intros ?]
    | match goal with
      | |- silent (match ?x with _ => _ end) => destruct x
      | |- silent (if ?b then _ else _) => destruct b
      end ].

Lemma at_most_axes_bar id args kw : at_most 1 (Run.axes_bar id args kw).
Proof.
  unfold Run.axes_bar. apply at_most_logged.
  destruct (negb (Run.known_keywords kw)); [apply silent_raise|].
  destruct args as [|x args]; [apply silent_raise|].
  destruct x; try apply silent_raise.
  destruct args as [|h rest]; [apply silent_raise|].
  destruct (2 <? List.length rest); [apply silent_raise|].
  quiet.
Qed.

Lemma at_most_module_call name args kw : at_most 1 (Run.module_call name args kw).
Proof.
  unfold Run.module_call.
  destruct (String.eqb name "subplots").
  - apply at_most_logged. destruct args, kw; try apply silent_raise.
    intros st. reflexivity.
  - destruct (String.eqb name "show").
    + apply at_most_logged. intros st. reflexivity.
    + apply (at_most_le 0); [lia|]. apply at_most_silent, silent_raise.
Qed.

Lemma at_most_axes_call id name args kw : at_most 1 (Run.axes_call id name args kw).
Proof.
  unfold Run.axes_call.
  destruct (String.eqb name "bar"); [apply at_most_axes_bar|].
  destruct (String.eqb name "set_ylabel"); [apply at_most_logged; quiet|].
  destruct (String.eqb name "set_title"); [apply at_most_logged; quiet|].
  destruct (String.eqb name "legend"); [apply at_most_logged; quiet|].
  apply (at_most_le 0); [lia|]. apply at_most_silent, silent_raise.
Qed.

Lemma silent_builtin_call name args kw : silent (Run.builtin_call name args kw).
Proof. unfold Run.builtin_call. quiet. Qed.

Lemma at_most_call f args kw : at_most 1 (Run.call f args kw).
Proof.
  unfold Run.call.
  destruct f; try (apply (at_most_le 0); [lia|]; apply at_most_silent, silent_raise).
  - apply (at_most_le 0); [lia|]. apply at_most_silent, silent_builtin_call.
  - destruct f; try (apply (at_most_le 0); [lia|]; apply at_most_silent, silent_raise).
    + apply at_most_module_call.
    + apply at_most_axes_call.
Qed.

Lemma at_most_eval e : at_most (Syntax.call_sites e) (Run.eval e).
Proof.
  induction e as [x|n|s|items IH|o a IH|f args kwargs IHf IHa IHk]
    using expr_nested_ind; simpl.
  - apply at_most_silent. quiet.
  - apply at_most_silent. quiet.
  - apply at_most_silent. quiet.
  - replace (list_sum (map Syntax.call_sites items))
      with (list_sum (map Syntax.call_sites items) + 0) by lia.
    apply at_most_bind; [|intros vs; apply at_most_silent, silent_ret].
    induction IH as [|i r Hi _ IHr]; simpl.
    + apply at_most_silent, silent_ret.
    + apply at_most_bind; [exact Hi|]. intros v.
      replace (list_sum (map Syntax.call_sites r))
        with (list_sum (map Syntax.call_sites r) + 0) by lia.
      apply at_most_bind; [exact IHr|]. intros vs. apply at_most_silent, silent_ret.
  - replace (Syntax.call_sites o) with (Syntax.call_sites o + 0) by lia.
    apply at_most_bind; [exact IH|]. intros v. apply at_most_silent, silent_get_attr.
  - replace (S (Syntax.call_sites f + list_sum (map Syntax.call_sites args)
                + list_sum (map (fun p => Syntax.call_sites (snd p)) kwargs)))
      with (Syntax.call_sites f
            + (list_sum (map Syntax.call_sites args)
               + (list_sum (map (fun p => Syntax.call_sites (snd p)) kwargs) + 1)))
      by lia.
    apply at_most_bind; [exact IHf|]. intros fv.
    apply at_most_bind.
    { clear IHk. induction IHa as [|i r Hi _ IHr]; simpl.
      - apply at_most_silent, silent_ret.
      - apply at_most_bind; [exact Hi|]. intros v.
        replace (list_sum (map Syntax.call_sites r))
          with (list_sum (map Syntax.call_sites r) + 0) by lia.
        apply at_most_bind; [exact IHr|]. intros vs.
        apply at_most_silent, silent_ret. }
    intros avs.
    apply at_most_bind; [|intros kvs; apply at_most_call].
    clear IHa. induction IHk as [|[k i] r Hi _ IHr]; simpl.
    + apply at_most_silent, silent_ret.
    + apply at_most_bind; [exact Hi|]. intros v.
      replace (list_sum (map (fun p => Syntax.call_sites (snd p)) r))
        with (list_sum (map (fun p => Syntax.call_sites (snd p)) r) + 0) by lia.
      apply at_most_bind; [exact IHr|]. intros vs.
      apply at_most_silent, silent_ret.
Qed.

Lemma silent_assign_all xs vs : silent (Run.assign_all xs vs).
Proof.
  revert vs. induction xs as [|x xs IH]; intros [|v vs]; simpl; quiet. apply IH.
Qed.

Lemma at_most_exec s : at_most (Syntax.stmt_call_sites s) (Run.exec s).
Proof.
  destruct s as [xs e|e]; simpl.
  - replace (Syntax.call_sites e) with (Syntax.call_sites e + 0) by lia.
    destruct xs as [|x [|y xs]].
    + apply at_most_bind; [apply at_most_eval|]. intros v.
      apply at_most_silent. quiet; apply silent_assign_all.
    + apply at_most_bind; [apply at_most_eval|]. intros v.
      apply at_most_silent, silent_assign.
    + apply at_most_bind; [apply at_most_eval|]. intros v.
      apply at_most_silent. quiet; apply silent_assign_all.
  - replace (Syntax.call_sites e) with (Syntax.call_sites e + 0) by lia.
    apply at_most_bind; [apply at_most_eval|]. intros v.
    apply at_most_silent, silent_ret.
Qed.

(** Every program of the fragment makes at most as many pyplot calls as
    its text has call expressions: no call site runs twice. *)
Lemma at_most_exec_all ss : at_most (Syntax.program_call_sites ss) (Run.exec_all ss).
Proof.
  induction ss as [|s ss IH]; simpl.
  - apply at_most_silent, silent_ret.
  - unfold Syntax.program_call_sites. simpl.
    apply at_most_bind; [apply at_most_exec|]. intros _. exact IH.
Qed.

(** ** The plotting calls read nothing but [plt] from the kernel *)


Lemma assoc_cons {A} x y (a : A) l :
  Run.assoc x ((y, a) :: l) = if String.eqb x y then Some a else Run.assoc x l.
Proof. reflexivity. Qed.

Lemma assoc_nil {A} x : @Run.assoc A x [] = None.
Proof. reflexivity. Qed.



(** ** The readers on small inputs *)

(** A backslash at the end of a line joins it to the next; anywhere else
    outside a string it is an error token, and what follows is scanned on. *)
Example lex_backslash :
  map snd (Lex.tokenize 1 (Text.join_lines ["a = \"; "1"; "b = 2 \# c"]))
  = [Lex.NAME "a"; Lex.OP "="; Lex.NUMBER "1"; Lex.NEWLINE;
     Lex.NAME "b"; Lex.OP "="; Lex.NUMBER "2"; Lex.ERRORTOKEN "\";
     Lex.COMMENT "# c"; Lex.NEWLINE; Lex.ENDMARKER].
Proof. vm_compute. reflexivity. Qed.

(** A string literal ends on the line it starts on. *)
Example lex_open_string :
  map snd (Lex.tokenize 1 (Text.join_lines ["f('a b"; "c')"]))
  = [Lex.NAME "f"; Lex.OP "("; Lex.ERRORTOKEN "'"; Lex.NAME "a"; Lex.NAME "b";
     Lex.NL; Lex.NAME "c"; Lex.ERRORTOKEN "'"; Lex.OP ")"; Lex.NEWLINE;
     Lex.ENDMARKER].
Proof. vm_compute. reflexivity. Qed.

(** Statements are separated by line ends or semicolons, and a line break
    inside brackets separates nothing. *)
Example parse_separated :
  Syntax.parse 1 (Text.join_lines ["a = [1, 2]; b = .5"; "f(a,"; "  k=b)"])
  = Syntax.Parsed
      [ Syntax.SAssign ["a"] (Syntax.EList [Syntax.ENum "1"; Syntax.ENum "2"])
      ; Syntax.SAssign ["b"] (Syntax.ENum ".5")
      ; Syntax.SExpr (Syntax.ECall (Syntax.EName "f") [Syntax.EName "a"]
                        [("k", Syntax.EName "b")]) ].
Proof. vm_compute. reflexivity. Qed.

Example parse_run_together :
  Syntax.parse 1 "a = [1, 2] b = 3" = Syntax.Invalid 1 (Lex.NAME "b").
Proof. vm_compute. reflexivity. Qed.

(** Sequences of unequal length are refused by [bar], and nothing is
    drawn. *)
Example bar_unequal_lengths :
  let o := Run.run_cell Run.with_pyplot 1
             (Text.join_lines ["fig, ax = plt.subplots()";
                               "ax.bar(['a', 'b', 'c'], [1, 2])"]) in
  raised o = Some (Run.ValueError "height")
  /\ map Run.series (figures_of o) = [[]].
Proof. split; vm_compute; reflexivity. Qed.

(** A name the kernel does not hold is an error at the statement that
    reads it: without the import, [plt] is such a name. *)
Example plt_unbound :
  raised (Run.run_cell [] 40 (lines_of_cell 40 40)) = Some (Run.NameError "plt").
Proof. vm_compute. reflexivity. Qed.

(** The statements of the cell with one statement on each line, the
    title on one line and the escapes left out, draw the chart: two
    series of five bars, the label, the title and the legend. *)
Example separated_statements_draw_chart :
  let o := Run.run_cell Run.with_pyplot 1
             (Text.join_lines
                [ "labels = ['G1', 'G2', 'G3', 'G4', 'G6']"
                ; "men_means = [20, 35, 30, 35, 27]"
                ; "women_means = [25, 32, 34, 20, 25]"
                ; "men_std = [2, 3, 4, 1, 2]"
                ; "women_std = [3, 5, 2, 3, 3]"
                ; "width = 0.35 # the width of the bars: can also be len(x) sequence"
                ; ""
                ; "fig, ax = plt.subplots()"
                ; ""
                ; "ax.bar(labels, men_means, width, yerr=men_std, label='Men')"
                ; "ax.bar(labels, women_means, width, yerr=women_std, bottom=men_means,"
                ; "label='Women')"
                ; ""
                ; "ax.set_ylabel('Scores')"
                ; "ax.set_title('Scores broken out by group and gender')"
                ; "ax.legend()"
                ; "plt.show()" ]) in
  raised o = None
  /\ figures_of o
     = [Run.Figure [men_bars; women_bars] (Some "Scores")
          (Some "Scores broken out by group and gender")
          (Some ["Men"; "Women"])]
  /\ calls_of o
     = ["subplots"; "bar"; "bar"; "set_ylabel"; "set_title"; "legend"; "show"].
Proof. repeat split; vm_compute; reflexivity. Qed.

(** ** The notebook's properties *)

(** C1.  Rendering the chart from the cell does raise an error: in every
    kernel namespace the cell is rejected with a syntax error at line 35,
    at the name [men_means] that follows the first display without a
    separator; no pyplot call has run and no figure exists, so there are
    no bar series, no axis label, no title and no legend. *)
Theorem render_chart_raises :
  forall g,
    Run.run_cell g cell_first_line cell_text
    = Run.Raised (Run.SyntaxError 35 (Lex.NAME "men_means")) (Run.initial g)
    /\ figures_of (Run.run_cell g cell_first_line cell_text) = []
    /\ calls_of (Run.run_cell g cell_first_line cell_text) = [].
Proof.
  intros g.
  rewrite (run_cell_invalid g _ _ _ _ cell_parse_invalid).
  repeat split.
Qed.

(** C2.  The cell is not executable Python.  Statements run together on
    one line without a separator on lines 35, 36 (twice), 37, 38, 46 and
    47 (twice); a backslash that escapes nothing stands on line 37 and
    three times on line 47, each time before a character it was meant to
    escape; neither [import] nor [from] occurs among the names of the
    cell, so it has no import statement; parsing fails, and in every
    namespace the run stops with that error before any pyplot call. *)
Theorem cell_not_executable :
  Written.run_together 0 cell_tokens = [35; 36; 36; 37; 38; 46; 47; 47]
  /\ Written.stray "\" cell_tokens = [37; 47; 47; 47]
  /\ Written.stray "`" cell_tokens = [47; 47; 47]
  /\ Text.string_in "import" (Written.names cell_tokens) = false
  /\ Text.string_in "from" (Written.names cell_tokens) = false
  /\ Syntax.parse cell_first_line cell_text
     = Syntax.Invalid 35 (Lex.NAME "men_means")
  /\ forall g, exists line found st,
       Run.run_cell g cell_first_line cell_text
       = Run.Raised (Run.SyntaxError line found) st
       /\ Run.calls st = [].
Proof.
  repeat split; try (vm_compute; reflexivity).
  intros g. exists 35, (Lex.NAME "men_means"), (Run.initial g).
  split; [apply run_cell_invalid, cell_parse_invalid | reflexivity].
Qed.

(** C3.  The cell binds exactly five names to sequences: [labels],
    [men_means], [women_means], [men_std] and [women_std], and each of the
    five has length 5. *)
Theorem sequences_share_length :
  map (fun s => (fst s, List.length (snd s))) (Written.sequences cell_bindings)
  = [("labels", 5); ("men_means", 5); ("women_means", 5);
     ("men_std", 5); ("women_std", 5)]
  /\ forallb (fun s => List.length (snd s) =? 5) (Written.sequences cell_bindings)
     = true.
Proof. split; vm_compute; reflexivity. Qed.


(** C5.  As written, [men_means] is 20, 35, 30, 35, 27, [women_means] is
    25, 32, 34, 20, 25, and [labels] is G1, G2, G3, G4, G6: the last
    label is G6 and no label is G5. *)
Theorem literal_sequences :
  Written.numbers_of "men_means" cell_bindings = Some [20; 35; 30; 35; 27]%Q
  /\ Written.numbers_of "women_means" cell_bindings = Some [25; 32; 34; 20; 25]%Q
  /\ Written.strings_of "labels" cell_bindings = Some ["G1"; "G2"; "G3"; "G4"; "G6"]
  /\ Written.occurrences [Lex.STRING "G5"] cell_tokens = [].
Proof. repeat split; vm_compute; reflexivity. Qed.

(** C6.  The cell binds exactly one name to a scalar, [width], written
    0.35, whose value 35/100 is positive; both [bar] calls pass that one
    name as the width, their third positional argument. *)
Theorem single_positive_width :
  Written.scalars cell_bindings = [("width", Written.LNum "0.35")]
  /\ Run.number_value "0.35" = Some (35 # 100)
  /\ (exists w, Written.literal_number (Written.LNum "0.35") = Some w /\ (0 < w)%Q)
  /\ map (Inputs.positional 2) (filter Inputs.is_bar_call plotting_block)
     = [Some (Syntax.EName "width"); Some (Syntax.EName "width")]
  /\ map (Inputs.keyword_of "width") (filter Inputs.is_bar_call plotting_block)
     = [None; None].
Proof.
  split; [vm_compute; reflexivity|].
  split; [vm_compute; reflexivity|].
  split.
  - exists (35 # 100). split; [vm_compute; reflexivity|].
    unfold Qlt; simpl; lia.
  - split; vm_compute; reflexivity.
Qed.

(** C7.  The header declares exactly three format targets, in this
    order: pdf with the scalar [default], beamer with the one option
    [keep-tex: true], revealjs with the one option
    [template: revealjs.template]; its kernelspec names Python 3
    ([python], [python3]) and its jupytext text representation is the
    percent format with extension [.py]. *)
Theorem header_declares_targets :
  Yaml.children ["format"] matplotlib_header = ["pdf"; "beamer"; "revealjs"]
  /\ Yaml.lookup ["format"; "pdf"] matplotlib_header = Some "default"
  /\ Yaml.children ["format"; "pdf"] matplotlib_header = []
  /\ Yaml.children ["format"; "beamer"] matplotlib_header = ["keep-tex"]
  /\ Yaml.lookup ["format"; "beamer"; "keep-tex"] matplotlib_header = Some "true"
  /\ Yaml.children ["format"; "revealjs"] matplotlib_header = ["template"]
  /\ Yaml.lookup ["format"; "revealjs"; "template"] matplotlib_header
     = Some "revealjs.template"
  /\ Yaml.children ["jupyter"; "kernelspec"] matplotlib_header
     = ["display_name"; "language"; "name"]
  /\ Yaml.lookup ["jupyter"; "kernelspec"; "display_name"] matplotlib_header
     = Some "Python 3"
  /\ Yaml.lookup ["jupyter"; "kernelspec"; "language"] matplotlib_header
     = Some "python"
  /\ Yaml.lookup ["jupyter"; "kernelspec"; "name"] matplotlib_header
     = Some "python3"
  /\ Yaml.lookup ["jupyter"; "jupytext"; "text_representation"; "format_name"]
       matplotlib_header = Some "percent"
  /\ Yaml.lookup ["jupyter"; "jupytext"; "text_representation"; "extension"]
       matplotlib_header = Some ".py"
  /\ Yaml.lookup ["jupyter"; "jupytext"; "formats"] matplotlib_header
     = Some "ipynb,md,py:percent".
Proof. repeat split; vm_compute; reflexivity. Qed.

(** C8.  The cell has no branch, loop, definition or block: none of its
    names is a keyword of a compound statement or of a branching
    expression, it has no colon and no indented line.  The statements of
    its plotting paragraphs are assignments and calls.  In the fragment
    such statements belong to, a run makes at most as many pyplot calls
    as the text has call expressions, so nothing runs twice; and the run
    of the cell itself ends, in every namespace, with the syntax error
    of line 35 after no call at all. *)
Theorem cell_straight_line :
  forallb (fun x => negb (Text.string_in x Syntax.control_keywords))
          (Written.names cell_tokens) = true
  /\ Written.occurrences [Lex.OP ":"] cell_tokens = []
  /\ existsb (fun lt => Inputs.is_indent (snd lt)) cell_tokens = false
  /\ forallb Inputs.assignment_or_call plotting_block = true
  /\ (forall ss st,
        List.length (Run.calls (final (Run.exec_all ss st)))
        <= List.length (Run.calls st) + Syntax.program_call_sites ss)
  /\ (forall g,
        Run.run_cell g cell_first_line cell_text
        = Run.Raised (Run.SyntaxError 35 (Lex.NAME "men_means")) (Run.initial g)).
Proof.
  split; [vm_compute; reflexivity|].
  split; [vm_compute; reflexivity|].
  split; [vm_compute; reflexivity|].
  split; [vm_compute; reflexivity|].
  split.
  - intros ss st. apply at_most_exec_all.
  - intros g. apply run_cell_invalid, cell_parse_invalid.
Qed.




(** * Further properties of the file *)

(** ** The layout of the notebook *)


(** X2.  The header is a well-formed tree of keys: its 24 lines between
    the fences give 24 entries, no key path occurs twice, the mapping
    that encloses an entry is itself an entry, an entry with entries
    under it carries no scalar and every other entry carries one.  Its
    top-level keys are, in order, title, execute, format, knit,
    editor_options and jupyter. *)
Theorem header_well_formed :
  List.length (fst (Percent.split_header Source.source_lines)) = 24
  /\ List.length matplotlib_header = 24
  /\ no_duplicate_paths matplotlib_header = true
  /\ forallb (parent_present matplotlib_header) matplotlib_header = true
  /\ forallb (fun e => Bool.eqb (has_child matplotlib_header e)
                                (String.eqb (Yaml.value e) ""))
             matplotlib_header = true
  /\ Yaml.children [] matplotlib_header
     = ["title"; "execute"; "format"; "knit"; "editor_options"; "jupyter"]
  /\ Yaml.lookup ["title"] matplotlib_header = Some "MPL slides"
  /\ Yaml.lookup ["knit"] matplotlib_header = Some "quarto render".
Proof. repeat split; vm_compute; reflexivity. Qed.

(** ** The wrapping of the cell *)

Lemma fill_from_join w cur x r k cur' out :
  k = String.length cur + 1 + String.length x ->
  cur' = (cur ++ " " ++ x)%string ->
  k <= w ->
  Wrap.fill_from w cur (x :: r) = out ->
  Wrap.fill_from w cur' r = out.
Proof.
  intros -> -> H. simpl. apply Nat.leb_le in H. rewrite H. trivial.
Qed.

Lemma fill_from_break w cur x r k l out :
  k = String.length cur + 1 + String.length x ->
  w < k ->
  Wrap.fill_from w cur (x :: r) = l :: out ->
  cur = l /\ Wrap.fill_from w x r = out.
Proof.
  intros -> H. simpl. apply Nat.leb_gt in H. rewrite H.
  intros E. injection E as E1 E2. split; assumption.
Qed.

Lemma fill_from_end w cur out : Wrap.fill_from w cur [] = out -> out = [cur].
Proof. intros <-. reflexivity. Qed.

(** One step of a filling that is known to give the lines in [H]: the
    next word fits or does not, and a line that ends early contradicts
    [H]. *)
Ltac refill H w :=
  match type of H with
  | Wrap.fill_from w ?cur (?x :: ?r) = ?l :: ?out =>
      let k := eval vm_compute in (String.length cur + 1 + String.length x) in
      let cur' := eval vm_compute in (cur ++ " " ++ x)%string in
      let Hfit := fresh "Hfit" in
      let Hhd := fresh "Hhd" in
      let H' := fresh "H" in
      destruct (le_lt_dec k w) as [Hfit|Hfit];
      [ try lia;
        pose proof (fill_from_join w cur x r k cur' _ eq_refl eq_refl Hfit H) as H';
        clear H; rename H' into H
      | try lia;
        pose proof (fill_from_break w cur x r k l out eq_refl Hfit H) as [Hhd H'];
        clear H; rename H' into H;
        first [ discriminate Hhd | clear Hhd ] ]
  | Wrap.fill_from w ?cur [] = ?out =>
      apply fill_from_end in H; discriminate H
  end.

Lemma fill_start w ws x r out :
  ws = x :: r -> Wrap.fill w ws = out -> Wrap.fill_from w x r = out.
Proof. intros -> H. exact H. Qed.

Ltac words_in H :=
  match type of H with
  | Wrap.fill ?w ?ws = ?out =>
      let ws' := eval vm_compute in ws in
      match ws' with
      | ?x :: ?r =>
          let E := fresh "E" in
          let H' := fresh "H" in
          assert (E : ws = x :: r) by (vm_compute; reflexivity);
          pose proof (fill_start w ws x r out E H) as H';
          clear H E; rename H' into H
      end
  end.

(** Filling the first paragraph of the cell gives its four lines at
    column 72 only: a narrower column breaks the first line, a wider one
    takes a word of the fourth line into the third. *)
Lemma first_paragraph_column w :
  Wrap.fill w
    (Wrap.paragraph_words
       [ "labels = ['G1', 'G2', 'G3', 'G4', 'G6'] men_means = [20, 35, 30, 35, 27]"
       ; "women_means = [25, 32, 34, 20, 25] men_std = [2, 3, 4, 1, 2] women_std ="
       ; "[3, 5, 2, 3, 3] width = 0.35 \# the width of the bars: can also be"
       ; "len(x) sequence" ])
  = [ "labels = ['G1', 'G2', 'G3', 'G4', 'G6'] men_means = [20, 35, 30, 35, 27]"
    ; "women_means = [25, 32, 34, 20, 25] men_std = [2, 3, 4, 1, 2] women_std ="
    ; "[3, 5, 2, 3, 3] width = 0.35 \# the width of the bars: can also be"
    ; "len(x) sequence" ] ->
  w = 72.
Proof.
  intros H.
  words_in H.
  repeat refill H w.
Qed.

Lemma map_head_eq {A B} (f g : A -> B) x l :
  map f (x :: l) = map g (x :: l) -> f x = g x.
Proof. intros H. injection H as H _. exact H. Qed.

(** X3.  The lines of the cell are where filling at the header's wrap
    column puts them, and at no other column: refilling the words of
    every paragraph of the cell at column [w] gives the paragraph back
    if and only if [w] is the 72 of [editor_options: markdown: wrap]. *)
Theorem wrap_column_determined :
  forall w,
    map (fun p => Wrap.fill w (Wrap.paragraph_words (snd p))) cell_paragraphs
    = map snd cell_paragraphs
    <-> Wrap.wrap_column matplotlib_header = Some w.
Proof.
  intros w. split.
  - intros H.
    apply (map_head_eq _ snd) in H.
    apply first_paragraph_column in H. subst w.
    vm_compute. reflexivity.
  - intros H.
    assert (E : Wrap.wrap_column matplotlib_header = Some 72)
      by (vm_compute; reflexivity).
    rewrite E in H. injection H as <-.
    vm_compute. reflexivity.
Qed.

(** ** The paragraphs as Python *)


(** X5.  The file as a Python script: every line before line 35 is a
    comment or blank, so the header, the markdown cell and both marker
    lines give the tokenizer nothing but comments and line breaks, and
    the script is rejected at the very place the cell is, line 35. *)
Theorem file_as_script :
  forallb (fun lt => is_comment_or_break (snd lt))
          (filter (fun lt => fst lt <? 35)
                  (Lex.tokenize 1 (Text.join_lines Source.source_lines))) = true
  /\ filter (fun lt => 35 <=? fst lt)
            (Lex.tokenize 1 (Text.join_lines Source.source_lines))
     = cell_tokens
  /\ Syntax.parse 1 (Text.join_lines Source.source_lines)
     = Syntax.Invalid 35 (Lex.NAME "men_means")
  /\ forall g,
       Run.run_cell g 1 (Text.join_lines Source.source_lines)
       = Run.Raised (Run.SyntaxError 35 (Lex.NAME "men_means")) (Run.initial g).
Proof.
  split; [vm_compute; reflexivity|].
  split; [vm_compute; reflexivity|].
  assert (E : Syntax.parse 1 (Text.join_lines Source.source_lines)
              = Syntax.Invalid 35 (Lex.NAME "men_means"))
    by (vm_compute; reflexivity).
  split; [exact E|].
  intros g. apply run_cell_invalid, E.
Qed.

(** ** The statements under the wrapping *)

(** The lookups of a run in a namespace that is not known are settled by
    the equations of [assoc] and by what is known of the namespace. *)
Ltac run_in_namespace H :=
  repeat (cbv -[Run.assoc Run.store];
          rewrite ?assoc_store, ?assoc_cons, ?assoc_nil, ?H).

(** X6.  Unwrapping each paragraph of the cell, dropping its error
    tokens and separating the statements that run together gives
    thirteen statements: the six assignments of the values as written,
    the statements of lines 40 to 44, and the calls [set_ylabel],
    [set_title], [legend] and [show] of lines 46 and 47, the title being
    one string.  In every namespace that holds pyplot as [plt] they run
    without error and draw one figure, shown once: two series of five
    bars, the y-axis label Scores, the title and the legend Men, Women. *)
Theorem restored_cell_draws_chart :
  forall g,
    Run.assoc "plt" g = Some (Run.VModule Run.pyplot) ->
    Wrap.restored cell_paragraphs
    = Syntax.Parsed
        (Written.binding_statements cell_bindings ++ plotting_block ++ closing_block)
    /\ exists e,
         Run.exec_all
           (Written.binding_statements cell_bindings ++ plotting_block ++ closing_block)
           (Run.initial g)
         = Run.Ok tt
             (Run.State e [chart] 1
                ["subplots"; "bar"; "bar"; "set_ylabel"; "set_title";
                 "legend"; "show"]).
Proof.
  intros g Hplt. split; [vm_compute; reflexivity|].
  eexists. unfold Run.pyplot in Hplt.
  run_in_namespace Hplt.
  reflexivity.
Qed.

Lemma restored_cell_draws_chart_witness :
  exists e,
    Run.exec_all
      (Written.binding_statements cell_bindings ++ plotting_block ++ closing_block)
      (Run.initial Run.with_pyplot)
    = Run.Ok tt
        (Run.State e [chart] 1
           ["subplots"; "bar"; "bar"; "set_ylabel"; "set_title"; "legend"; "show"]).
Proof.
  apply (restored_cell_draws_chart Run.with_pyplot). reflexivity.
Defined.

(** X7.  The cell imports nothing: in every namespace that does not
    hold [plt], the restored statements bind the six names and then stop
    at line 40 with a name error for [plt], before any pyplot call and
    with no figure. *)
Theorem restored_cell_needs_import :
  forall g,
    Run.assoc "plt" g = None ->
    exists e,
      Run.exec_all
        (Written.binding_statements cell_bindings ++ plotting_block ++ closing_block)
        (Run.initial g)
      = Run.Raised (Run.NameError "plt") (Run.State e [] 0 [])
      /\ map (fun x => Run.assoc x e)
             ["labels"; "men_means"; "women_means"; "men_std"; "women_std"; "width"]
         = map (fun b => Some (snd b)) (Written.namespace cell_bindings).
Proof.
  intros g Hplt. eexists. split.
  - run_in_namespace Hplt. reflexivity.
  - run_in_namespace Hplt. reflexivity.
Qed.

Lemma restored_cell_needs_import_witness :
  exists e,
    Run.exec_all
      (Written.binding_statements cell_bindings ++ plotting_block ++ closing_block)
      (Run.initial [])
    = Run.Raised (Run.NameError "plt") (Run.State e [] 0 [])
    /\ map (fun x => Run.assoc x e)
           ["labels"; "men_means"; "women_means"; "men_std"; "women_std"; "width"]
       = map (fun b => Some (snd b)) (Written.namespace cell_bindings).
Proof.
  apply (restored_cell_needs_import []). reflexivity.
Defined.
